(** * Degen Index demo: the mock classifier and the batch summary

    A shallow embedding of [src/ingest_demo.py]: the heuristic classifier
    [mock_classify_comment], the text cut of [print_classification], and
    [main] from its credential check to the summary block that closes it.

    Modelling choices.
    - A Python [str] is a [string]; [w in s] is substring search
      ([contains]).  The characters of a [string] are bytes, so text
      outside ASCII stands as its UTF-8 encoding; every keyword of the
      source is ASCII, and such a word occurs in a text exactly where its
      bytes occur in the encoding.  [str.upper] and [str.lower] are the
      two fields of a [CaseMap]; every general theorem holds for any case
      mapping, and [ascii_case] (letters a-z and A-Z, what Python does on
      ASCII text) is the instance the concrete examples run on.
    - A Python [int] is a [Z]; [min] and [max] are [Z.min] and [Z.max].
    - The module-level generator behind [random.choice] is an explicit
      state of a [RandomSource], threaded through the classifier.
    - An exception is a value of [exn], carried by [result].
    - A classification dict is a record with the dict's keys as fields;
      enum-like values stay the string literals the source writes.
    - The mean printed by [main] is the exact rational quotient (the
      source produces the nearest float). *)

From Stdlib Require Import ZArith QArith String Ascii List Bool Lia.
From Stdlib Require Import Sorting.Permutation.
From stdpp Require Import base gmap sets strings.
Import ListNotations.

Local Open Scope string_scope.
Local Open Scope Z_scope.

(** ** Exceptions *)

Inductive exn : Type :=
| IndexError
| ZeroDivisionError.

Inductive result (A : Type) : Type :=
| Ok (a : A)
| Raise (e : exn).

Arguments Ok {A} a.
Arguments Raise {A} e.

(** ** Strings *)

(** [starts_with s w]: [w] is read off the front of [s]. *)
Fixpoint starts_with (s w : string) {struct w} : bool :=
  match w with
  | EmptyString => true
  | String a w' =>
      match s with
      | EmptyString => false
      | String b s' => Ascii.eqb a b && starts_with s' w'
      end
  end.

(** [contains s w] is Python's [w in s]: [w] starts at some position of
    [s] (the empty string occurs everywhere). *)
Fixpoint contains (s w : string) : bool :=
  starts_with s w ||
  match s with
  | EmptyString => false
  | String _ s' => contains s' w
  end.

Class CaseMap : Type := {
  str_upper : string -> string;
  str_lower : string -> string
}.

Definition ascii_upper (c : ascii) : ascii :=
  let n := N_of_ascii c in
  if ((97 <=? n) && (n <=? 122))%N then ascii_of_N (n - 32) else c.

Definition ascii_lower (c : ascii) : ascii :=
  let n := N_of_ascii c in
  if ((65 <=? n) && (n <=? 90))%N then ascii_of_N (n + 32) else c.

Fixpoint map_string (f : ascii -> ascii) (s : string) : string :=
  match s with
  | EmptyString => EmptyString
  | String c s' => String (f c) (map_string f s')
  end.

(** ** The random source *)

(** [randbelow n g] is [Random._randbelow(n)]: a draw below [n] and the
    generator's next state. *)
Class RandomSource (G : Type) : Type := {
  randbelow : nat -> G -> nat * G;
  randbelow_lt : forall n g, (0 < n)%nat -> (fst (randbelow n g) < n)%nat
}.

(** [random.choice(seq)]: IndexError on an empty sequence, else
    [seq[_randbelow(len(seq))]]. *)
Definition random_choice {A G : Type} `{RandomSource G}
    (seq : list A) (g : G) : result A * G :=
  match seq with
  | [] => (Raise IndexError, g)
  | _ :: _ =>
      let (i, g') := randbelow (length seq) g in
      (match nth_error seq i with
       | Some x => Ok x
       | None => Raise IndexError
       end, g')
  end.

(** A tape of pre-drawn numbers, reduced below the bound: a source that
    can replay any sequence of draws. *)
Definition tape_randbelow (n : nat) (g : list nat) : nat * list nat :=
  match g with
  | [] => (0%nat, [])
  | x :: g' => (Nat.modulo x n, g')
  end.

(** ** Python built-ins on lists *)

Definition len {A : Type} (l : list A) : Z := Z.of_nat (length l).

(** [sum(1 for x in xs if p x)] *)
Fixpoint count_where {A : Type} (p : A -> bool) (xs : list A) : Z :=
  match xs with
  | [] => 0
  | x :: xs' => (if p x then 1 else 0) + count_where p xs'
  end.

(** [sum(f x for x in xs)] *)
Fixpoint sum_of {A : Type} (f : A -> Z) (xs : list A) : Z :=
  match xs with
  | [] => 0
  | x :: xs' => f x + sum_of f xs'
  end.

(** [n / d] on ints: true division, ZeroDivisionError when [d] is 0. *)
Definition py_truediv (n d : Z) : result Q :=
  if d =? 0 then Raise ZeroDivisionError
  else Ok (inject_Z n / inject_Z d)%Q.

(** ** Module constants *)

Definition COMMON_TICKERS : list string :=
  ["SPY"; "QQQ"; "NVDA"; "TSLA"; "AAPL"; "AMD"; "AMZN"; "META"; "GOOGL"; "MSFT"].
Definition MOODS : list string :=
  ["euphoria"; "fear"; "despair"; "cope"; "smug"; "confusion"; "neutral"].
Definition DIRECTIONS : list string :=
  ["bullish"; "bearish"; "mixed"; "neutral"].

(** ** The classification record *)

Record Sentiment : Type := {
  trade_direction : string;
  sentiment_confidence : Z;
  is_sarcastic : bool
}.

Record Classification : Type := {
  is_trade_plan : bool;
  is_meme : bool;
  is_commentary : bool;
  tickers : list string;
  primary_mood : string;
  topic_type : string;
  sentiment : Sentiment;
  degen_score : Z;
  meme_score : Z
}.

(** ** mock_classify_comment *)

Definition bullish_words : list string :=
  ["moon"; "calls"; "buy"; "long"; "rocket"; "tendies"; "print"].
Definition bearish_words : list string :=
  ["puts"; "short"; "drill"; "crash"; "dump"; "rug"].
Definition trade_indicators : list string :=
  ["bought"; "buying"; "sold"; "selling"; "holding"; "position"; "calls"; "puts"].
Definition meme_indicators : list string :=
  ["lmao"; "lol"; "ape"; "smooth brain"; "wife's boyfriend"; "wendy's"].

Section Classifier.
Context `{CaseMap}.

(** The locals of [mock_classify_comment], each as a function of [body]. *)

Definition found_tickers (body : string) : list string :=
  let body_upper := str_upper body in
  List.filter (fun t => contains body_upper t) COMMON_TICKERS.

Definition bullish_count (body : string) : Z :=
  count_where (fun w => contains (str_lower body) w) bullish_words.

Definition bearish_count (body : string) : Z :=
  count_where (fun w => contains (str_lower body) w) bearish_words.

Definition direction (body : string) : string :=
  if bullish_count body >? bearish_count body then "bullish"
  else if bearish_count body >? bullish_count body then "bearish"
  else "neutral".

Definition is_trade (body : string) : bool :=
  existsb (fun w => contains (str_lower body) w) trade_indicators.

Definition meme_count (body : string) : Z :=
  count_where (fun w => contains (str_lower body) w) meme_indicators.

Context {G : Type} `{RandomSource G}.

(** The mood entry: [random.choice(MOODS) if meme_count == 0 else
    "euphoria"]; the generator is touched only in the first branch. *)
Definition mood_of (body : string) (g : G) : result string * G :=
  if meme_count body =? 0 then random_choice MOODS g
  else (Ok "euphoria", g).

Definition mock_classify_comment (body : string) (g : G)
    : result Classification * G :=
  let found := found_tickers body in
  let is_tr := is_trade body in
  let memes := meme_count body in
  match mood_of body g with
  | (Raise e, g') => (Raise e, g')
  | (Ok mood, g') =>
      (Ok {|
         is_trade_plan := is_tr;
         is_meme := memes >=? 2;
         is_commentary := negb is_tr || (len found >? 0);
         tickers := found;
         primary_mood := mood;
         topic_type :=
           if len found =? 1 then "single_stock"
           else match found with
                | _ :: _ => "index_macro"
                | [] => "other"
                end;
         sentiment := {|
           trade_direction := direction body;
           sentiment_confidence :=
             Z.min 10 (Z.max 1 (bullish_count body + bearish_count body + 3));
           is_sarcastic := contains body "/s" || (memes >=? 2)
         |};
         degen_score := Z.min 10 (3 + memes + (if is_tr then 2 else 0));
         meme_score := Z.min 10 (memes * 3)
       |}, g')
  end.

(** The classification loop of [main]: one call per comment body, in
    order, on the same generator. *)
Fixpoint classify_all (bodies : list string) (g : G)
    : result (list Classification) * G :=
  match bodies with
  | [] => (Ok [], g)
  | body :: rest =>
      match mock_classify_comment body g with
      | (Raise e, g') => (Raise e, g')
      | (Ok c, g') =>
          match classify_all rest g' with
          | (Raise e, g'') => (Raise e, g'')
          | (Ok cs, g'') => (Ok (c :: cs), g'')
          end
      end
  end.
End Classifier.

(** ** The summary block of [main] *)

(** What the four summary [print] calls show.  [LTickers None] is the
    ['None'] that [list(set(all_tickers)) or 'None'] prints for an empty
    set; the set of a non-empty list is shown as a set, its listing order
    being unspecified. *)
Inductive Line : Type :=
| LAnalyzed (n : Z)
| LTickers (ts : option (gset string))
| LBreakdown (bullish bearish neutral : Z)
| LAverage (q : Q).

(** [all_tickers = []; for c in classifications: all_tickers.extend(c["tickers"])] *)
Definition all_tickers (classifications : list Classification) : list string :=
  fold_left (fun acc c => (acc ++ tickers c)%list) classifications [].

Definition direction_is (d : string) (c : Classification) : bool :=
  String.eqb (trade_direction (sentiment c)) d.

Definition bullish (classifications : list Classification) : Z :=
  count_where (direction_is "bullish") classifications.

Definition bearish (classifications : list Classification) : Z :=
  count_where (direction_is "bearish") classifications.

Definition neutral (classifications : list Classification) : Z :=
  len classifications - bullish classifications - bearish classifications.

Definition unique_tickers (classifications : list Classification)
    : option (gset string) :=
  let s : gset string := list_to_set (all_tickers classifications) in
  if decide (s = ∅) then None else Some s.

(** [sum(c['degen_score'] for c in classifications) / len(classifications)] *)
Definition average_degen_score (classifications : list Classification)
    : result Q :=
  py_truediv (sum_of degen_score classifications) (len classifications).

(** Lines 208-226 of [main]: the lines printed so far, and how the block
    ends: [Ok 0] is [return 0], [Raise e] an exception that leaves [main]
    uncaught.  The constant banner and note lines are left out. *)
Definition summary_block (classifications : list Classification)
    : list Line * result Z :=
  let printed :=
    [ LAnalyzed (len classifications);
      LTickers (unique_tickers classifications);
      LBreakdown (bullish classifications) (bearish classifications)
                 (neutral classifications) ] in
  match average_degen_score classifications with
  | Raise e => (printed, Raise e)
  | Ok q => ((printed ++ [LAverage q])%list, Ok 0)
  end.

(** [clamp(x, lo, hi)] as the specification writes it; the source spells
    the two scores with [min] only. *)
Definition clamp (x lo hi : Z) : Z := Z.max lo (Z.min hi x).

(** [c] with its mood entry replaced. *)
Definition with_mood (m : string) (c : Classification) : Classification :=
  {| is_trade_plan := is_trade_plan c;
     is_meme := is_meme c;
     is_commentary := is_commentary c;
     tickers := tickers c;
     primary_mood := m;
     topic_type := topic_type c;
     sentiment := sentiment c;
     degen_score := degen_score c;
     meme_score := meme_score c |}.

(** ** Instances the examples run on *)

#[export] Instance ascii_case : CaseMap := {|
  str_upper := map_string ascii_upper;
  str_lower := map_string ascii_lower
|}.

#[export, refine] Instance tape_source : RandomSource (list nat) := {|
  randbelow := tape_randbelow
|}.
Proof.
  intros n g Hn. destruct g as [|x g']; simpl; [exact Hn|].
  apply Nat.mod_upper_bound. lia.
Defined.

(** A sample record with a given direction and degen_score. *)
Definition record_with (d : string) (score : Z) : Classification :=
  {| is_trade_plan := false;
     is_meme := false;
     is_commentary := true;
     tickers := ["SPY"];
     primary_mood := "neutral";
     topic_type := "single_stock";
     sentiment := {| trade_direction := d;
                     sentiment_confidence := 3;
                     is_sarcastic := false |};
     degen_score := score;
     meme_score := 0 |}.

(** ** Slices, comments and the whole of [main] *)

(** [l[:k]]: a negative [k] counts from the end, and the bound is
    brought into [0, len(l)]. *)
Definition py_slice_to {A : Type} (l : list A) (k : Z) : list A :=
  let stop :=
    if k <? 0 then (if k + len l <? 0 then 0 else k + len l)
    else if k >=? len l then len l else k in
  firstn (Z.to_nat stop) l.

(** The two pieces of text that [print_classification] puts between the
    quotes: [comment.body[:300]], and whether ["..."] follows
    ([len(comment.body) > 300]).  The body is taken as a sequence of
    characters of any type, so positions are Python's. *)
Definition text_preview {A : Type} (body : list A) : list A * bool :=
  (py_slice_to body 300, len body >? 300).

(** A comment as [main] and [print_classification] read it; [author] is
    [None] for a deleted account, else the account's name. *)
Record Comment : Type := {
  author : option string;
  body : string;
  score : Z;
  permalink : string
}.

(** [comment.author.name if comment.author else '[deleted]'] *)
Definition author_shown (comment : Comment) : string :=
  match author comment with
  | Some name => name
  | None => "[deleted]"
  end.

(** What [main] prints, banners and thread details left out: the two
    error reports, the number of comments fetched, one call of
    [print_classification] per comment, and the summary lines. *)
Inductive Printed : Type :=
| PMissingCredentials
| PFetchError
| PFetched (n : Z)
| PClassification (index : Z) (comment : Comment) (classification : Classification)
| PSummary (line : Line).

(** [not v] for a value of [os.getenv]: unset, or set to the empty string. *)
Definition falsy (v : option string) : bool :=
  match v with
  | None => true
  | Some s => String.eqb s ""
  end.

Definition printed_classifications (out : list Printed)
    : list (Z * Comment * Classification) :=
  flat_map (fun p => match p with
                     | PClassification i c k => [(i, c, k)]
                     | _ => []
                     end) out.

Definition with_sarcasm (b : bool) (c : Classification) : Classification :=
  {| is_trade_plan := is_trade_plan c;
     is_meme := is_meme c;
     is_commentary := is_commentary c;
     tickers := tickers c;
     primary_mood := primary_mood c;
     topic_type := topic_type c;
     sentiment := {| trade_direction := trade_direction (sentiment c);
                     sentiment_confidence := sentiment_confidence (sentiment c);
                     is_sarcastic := b |};
     degen_score := degen_score c;
     meme_score := meme_score c |}.

Section Main.
Context `{CaseMap} {G : Type} `{RandomSource G}.

(** [for i, comment in enumerate(comments, i): ...]: classify, append,
    print.  An exception of the classifier ends the loop. *)
Fixpoint classification_loop (i : Z) (comments : list Comment) (g : G)
    : list Printed * result (list Classification) * G :=
  match comments with
  | [] => ([], Ok [], g)
  | comment :: rest =>
      match mock_classify_comment (body comment) g with
      | (Raise e, g') => ([], Raise e, g')
      | (Ok classification, g') =>
          let '(out, r, g'') := classification_loop (i + 1) rest g' in
          (PClassification i comment classification :: out,
           match r with
           | Ok classifications => Ok (classification :: classifications)
           | Raise e => Raise e
           end, g'')
      end
  end.

(** [main].  [client_id] and [client_secret] are the two [os.getenv]
    results and [limit] is [args.limit].  [submission] is what the [try]
    block meets: [None] when fetching the thread raises (the [except]
    branch), else the thread's top-level comments.  The result is what
    was printed, how [main] ends ([Ok n] for [return n], [Raise e] for an
    exception nothing catches) and the generator's last state. *)
Definition main (client_id client_secret : option string) (limit : Z)
    (submission : option (list Comment)) (g : G)
    : list Printed * result Z * G :=
  if falsy client_id || falsy client_secret then
    ([PMissingCredentials], Ok 1, g)
  else
    match submission with
    | None => ([PFetchError], Ok 1, g)
    | Some all_comments =>
        let comments := py_slice_to all_comments limit in
        match classification_loop 1 comments g with
        | (out, Raise e, g') => (PFetched (len comments) :: out, Raise e, g')
        | (out, Ok classifications, g') =>
            let (lines, r) := summary_block classifications in
            ((PFetched (len comments) :: out ++ map PSummary lines)%list, r, g')
        end
    end.
End Main.

(** * Properties *)

(** ** Substring search *)



(** ** Counting *)

Lemma count_where_filter {A : Type} (p : A -> bool) (xs : list A) :
  count_where p xs = len (List.filter p xs).
Proof.
  unfold len. induction xs as [|x xs IH]; simpl; [reflexivity|].
  rewrite IH. destruct (p x); simpl length; lia.
Qed.

Lemma count_where_bounds {A : Type} (p : A -> bool) (xs : list A) :
  0 <= count_where p xs <= len xs.
Proof.
  unfold len. induction xs as [|x xs IH]; simpl length; simpl count_where.
  - lia.
  - destruct (p x); lia.
Qed.


(** ** The random draw *)

Lemma random_choice_ok {A G : Type} `{RandomSource G} (seq : list A) (g : G) :
  seq <> [] ->
  exists x,
    random_choice seq g = (Ok x, snd (randbelow (length seq) g)) /\
    nth_error seq (fst (randbelow (length seq) g)) = Some x.
Proof.
  intros Hne. destruct seq as [|a seq]; [contradiction|].
  unfold random_choice.
  pose proof (randbelow_lt (length (a :: seq)) g) as Hlt.
  destruct (randbelow (length (a :: seq)) g) as [i g'] eqn:Hd.
  simpl fst in *. simpl snd.
  destruct (nth_error (a :: seq) i) as [x|] eqn:Hn.
  - exists x. split; reflexivity.
  - apply nth_error_None in Hn. simpl length in *. lia.
Qed.

Section ClassifierFacts.
Context `{CaseMap} {G : Type} `{RandomSource G}.

Lemma mood_of_ok (body : string) (g : G) :
  exists m g', mood_of body g = (Ok m, g') /\ In m MOODS.
Proof.
  unfold mood_of. destruct (meme_count body =? 0).
  - destruct (random_choice_ok MOODS g) as [m [Hc Hn]]; [discriminate|].
    exists m, (snd (randbelow (length MOODS) g)). split; [exact Hc|].
    eapply nth_error_In. exact Hn.
  - exists "euphoria", g. split; [reflexivity | simpl; tauto].
Qed.

(** The classifier returns a record on every body and generator state. *)
Lemma classify_total (body : string) (g : G) :
  exists c g', mock_classify_comment body g = (Ok c, g').
Proof.
  unfold mock_classify_comment.
  destruct (mood_of_ok body g) as [m [g' [Hm _]]]. rewrite Hm.
  eexists. exists g'. reflexivity.
Qed.

(** Each entry of a returned record, in terms of the locals. *)
Lemma classify_inv (body : string) (g g' : G) (c : Classification) :
  mock_classify_comment body g = (Ok c, g') ->
  mood_of body g = (Ok (primary_mood c), g') /\
  is_trade_plan c = is_trade body /\
  is_meme c = (meme_count body >=? 2) /\
  is_commentary c = negb (is_trade body) || (len (found_tickers body) >? 0) /\
  tickers c = found_tickers body /\
  topic_type c =
    (if len (found_tickers body) =? 1 then "single_stock"
     else match found_tickers body with
          | _ :: _ => "index_macro"
          | [] => "other"
          end) /\
  trade_direction (sentiment c) = direction body /\
  sentiment_confidence (sentiment c) =
    Z.min 10 (Z.max 1 (bullish_count body + bearish_count body + 3)) /\
  is_sarcastic (sentiment c) = contains body "/s" || (meme_count body >=? 2) /\
  degen_score c =
    Z.min 10 (3 + meme_count body + (if is_trade body then 2 else 0)) /\
  meme_score c = Z.min 10 (meme_count body * 3).
Proof.
  unfold mock_classify_comment.
  destruct (mood_of body g) as [[m|e] g1]; intros Heq; inversion Heq; subst.
  simpl. repeat split; reflexivity.
Qed.

Lemma meme_count_bounds (body : string) : 0 <= meme_count body <= 6.
Proof. apply (count_where_bounds _ meme_indicators). Qed.

Lemma bullish_count_bounds (body : string) : 0 <= bullish_count body <= 7.
Proof. apply (count_where_bounds _ bullish_words). Qed.

Lemma bearish_count_bounds (body : string) : 0 <= bearish_count body <= 6.
Proof. apply (count_where_bounds _ bearish_words). Qed.

Lemma direction_cases (body : string) :
  direction body = "bullish" \/ direction body = "bearish" \/
  direction body = "neutral".
Proof.
  unfold direction.
  destruct (bullish_count body >? bearish_count body); [tauto|].
  destruct (bearish_count body >? bullish_count body); tauto.
Qed.

Lemma found_tickers_NoDup (body : string) : List.NoDup (found_tickers body).
Proof.
  unfold found_tickers. apply List.NoDup_filter.
  unfold COMMON_TICKERS.
  repeat (apply List.NoDup_cons; [simpl; intuition discriminate|]).
  apply List.NoDup_nil.
Qed.

End ClassifierFacts.

(** ** The classifier's record *)

Section ClassifierClaims.
Context `{CaseMap} {G : Type} `{RandomSource G}.

(** C2. On every body (the empty string and keyword-free text included)
    and every generator state the classifier returns a record, never an
    exception; its sentiment_confidence lies in [1,10], its degen_score
    and meme_score in [0,10], and its three enum-valued entries are among
    the declared moods, topic types and directions. *)
Theorem classify_returns_bounded_record (body : string) (g : G) :
  exists c g',
    mock_classify_comment body g = (Ok c, g') /\
    1 <= sentiment_confidence (sentiment c) <= 10 /\
    0 <= degen_score c <= 10 /\
    0 <= meme_score c <= 10 /\
    In (primary_mood c) MOODS /\
    In (topic_type c) ["single_stock"; "index_macro"; "other"] /\
    In (trade_direction (sentiment c)) DIRECTIONS.
Proof.
  destruct (classify_total body g) as [c [g' Hc]]. exists c, g'.
  split; [exact Hc|].
  destruct (classify_inv _ _ _ _ Hc)
    as (Hmood & _ & _ & _ & _ & Htopic & Hdir & Hconf & _ & Hdegen & Hmeme).
  pose proof (meme_count_bounds body) as Hm.
  pose proof (bullish_count_bounds body) as Hb.
  pose proof (bearish_count_bounds body) as Hr.
  rewrite Hconf, Hdegen, Hmeme, Htopic, Hdir.
  split; [lia|]. split; [destruct (is_trade body); lia|]. split; [lia|].
  split; [|split].
  - destruct (mood_of_ok body g) as [m [g1 [Hm1 Hin]]].
    rewrite Hmood in Hm1. inversion Hm1; subst m. exact Hin.
  - destruct (len (found_tickers body) =? 1); [simpl; tauto|].
    destruct (found_tickers body); simpl; tauto.
  - destruct (direction_cases body) as [-> | [-> | ->]]; simpl; tauto.
Qed.

(** C3. The topic_type of the returned record follows from the number of
    tickers found alone: none gives "other", exactly one "single_stock",
    two or more "index_macro".  The tickers found are pairwise distinct,
    so their number is the size of the ticker set. *)
Theorem topic_type_by_ticker_count (body : string) (g : G) :
  exists c g',
    mock_classify_comment body g = (Ok c, g') /\
    tickers c = found_tickers body /\
    size (list_to_set (tickers c) : gset string) = length (tickers c) /\
    topic_type c =
      match length (tickers c) with
      | O => "other"
      | S O => "single_stock"
      | S (S _) => "index_macro"
      end.
Proof.
  destruct (classify_total body g) as [c [g' Hc]]. exists c, g'.
  split; [exact Hc|].
  destruct (classify_inv _ _ _ _ Hc) as (_ & _ & _ & _ & Htick & Htopic & _).
  rewrite Htopic, Htick. split; [reflexivity|]. split.
  - apply size_list_to_set, NoDup_ListNoDup, found_tickers_NoDup.
  - unfold len. destruct (found_tickers body) as [|t [|t' ts]]; try reflexivity.
    simpl length.
    destruct (Z.eqb_spec (Z.of_nat (S (S (length ts)))) 1); [lia | reflexivity].
Qed.

(** C4. The trade_direction of the returned record is "bullish" when more
    bullish than bearish keywords occur in the lower-cased body, "bearish"
    when more bearish than bullish ones do, "neutral" on a tie; it is
    never "mixed". *)
Theorem trade_direction_by_counts (body : string) (g : G) :
  exists c g',
    mock_classify_comment body g = (Ok c, g') /\
    bullish_count body =
      len (List.filter (fun w => contains (str_lower body) w) bullish_words) /\
    bearish_count body =
      len (List.filter (fun w => contains (str_lower body) w) bearish_words) /\
    trade_direction (sentiment c) =
      match bullish_count body ?= bearish_count body with
      | Gt => "bullish"
      | Lt => "bearish"
      | Eq => "neutral"
      end /\
    trade_direction (sentiment c) <> "mixed".
Proof.
  destruct (classify_total body g) as [c [g' Hc]]. exists c, g'.
  split; [exact Hc|].
  destruct (classify_inv _ _ _ _ Hc) as (_ & _ & _ & _ & _ & _ & Hdir & _).
  rewrite Hdir.
  split; [apply count_where_filter|]. split; [apply count_where_filter|].
  split.
  - unfold direction. rewrite !Z.gtb_ltb. unfold Z.ltb.
    rewrite (Z.compare_antisym (bullish_count body) (bearish_count body)).
    destruct (bullish_count body ?= bearish_count body); reflexivity.
  - destruct (direction_cases body) as [-> | [-> | ->]]; discriminate.
Qed.

(** C5. The degen_score of the returned record is
    clamp(3 + meme_count + (2 if is_trade_plan else 0), 0, 10), where
    meme_count is the number of entries of the (duplicate-free) meme
    vocabulary that occur in the lower-cased body, and is_trade_plan holds
    exactly when some trade-action keyword occurs in it. *)
Theorem degen_score_is_clamp (body : string) (g : G) :
  exists c g',
    mock_classify_comment body g = (Ok c, g') /\
    degen_score c =
      clamp (3 + meme_count body + (if is_trade_plan c then 2 else 0)) 0 10 /\
    meme_count body =
      len (List.filter (fun w => contains (str_lower body) w) meme_indicators) /\
    List.NoDup meme_indicators /\
    (is_trade_plan c = true <->
     exists w, In w trade_indicators /\ contains (str_lower body) w = true).
Proof.
  destruct (classify_total body g) as [c [g' Hc]]. exists c, g'.
  split; [exact Hc|].
  destruct (classify_inv _ _ _ _ Hc)
    as (_ & Htrade & _ & _ & _ & _ & _ & _ & _ & Hdegen & _).
  pose proof (meme_count_bounds body) as Hm.
  rewrite Hdegen, Htrade. unfold clamp. repeat split.
  - destruct (is_trade body); lia.
  - apply count_where_filter.
  - unfold meme_indicators.
    repeat (apply List.NoDup_cons; [simpl; intuition discriminate|]).
    apply List.NoDup_nil.
  - apply existsb_exists.
  - apply existsb_exists.
Qed.

(** C10. In the returned record at least one of is_trade_plan and
    is_commentary is true: a record that is not a trade plan is
    commentary. *)
Theorem trade_plan_or_commentary (body : string) (g : G) :
  exists c g',
    mock_classify_comment body g = (Ok c, g') /\
    is_trade_plan c || is_commentary c = true /\
    (is_trade_plan c = false -> is_commentary c = true).
Proof.
  destruct (classify_total body g) as [c [g' Hc]]. exists c, g'.
  split; [exact Hc|].
  destruct (classify_inv _ _ _ _ Hc) as (_ & Htrade & _ & Hcomm & _).
  rewrite Hcomm, Htrade. destruct (is_trade body); split; try reflexivity.
  discriminate.
Qed.

End ClassifierClaims.

(** ** Scores against the meme count *)

Section MonotoneClaims.
Context `{CaseMap} {G : Type} `{RandomSource G}.

(** Both scores grow with the meme count once the trade flag is fixed;
    the other locals play no part. *)
Lemma scores_monotone (b1 b2 : string) (g1 g2 : G) :
  is_trade b1 = is_trade b2 ->
  meme_count b1 <= meme_count b2 ->
  exists c1 g1' c2 g2',
    mock_classify_comment b1 g1 = (Ok c1, g1') /\
    mock_classify_comment b2 g2 = (Ok c2, g2') /\
    meme_score c1 <= meme_score c2 /\
    degen_score c1 <= degen_score c2.
Proof.
  intros Htr Hle.
  destruct (classify_total b1 g1) as [c1 [g1' Hc1]].
  destruct (classify_total b2 g2) as [c2 [g2' Hc2]].
  exists c1, g1', c2, g2'. split; [exact Hc1|]. split; [exact Hc2|].
  destruct (classify_inv _ _ _ _ Hc1)
    as (_ & _ & _ & _ & _ & _ & _ & _ & _ & Hd1 & Hm1).
  destruct (classify_inv _ _ _ _ Hc2)
    as (_ & _ & _ & _ & _ & _ & _ & _ & _ & Hd2 & Hm2).
  rewrite Hd1, Hd2, Hm1, Hm2, Htr. split; [lia|].
  destruct (is_trade b2); lia.
Qed.

(** C7. Take two bodies whose locals agree except for the meme count
    (same tickers found, same bullish and bearish counts, same trade
    flag).  If the first has the smaller or equal meme count, then its
    record has the smaller or equal meme_score and degen_score. *)
Theorem scores_monotone_in_meme_count (b1 b2 : string) (g1 g2 : G) :
  found_tickers b1 = found_tickers b2 ->
  bullish_count b1 = bullish_count b2 ->
  bearish_count b1 = bearish_count b2 ->
  is_trade b1 = is_trade b2 ->
  meme_count b1 <= meme_count b2 ->
  exists c1 g1' c2 g2',
    mock_classify_comment b1 g1 = (Ok c1, g1') /\
    mock_classify_comment b2 g2 = (Ok c2, g2') /\
    meme_score c1 <= meme_score c2 /\
    degen_score c1 <= degen_score c2.
Proof.
  intros _ _ _ Htr Hle. now apply scores_monotone.
Qed.

End MonotoneClaims.

(** ** Dependence on the random source *)

Section SourceClaims.
Context `{CaseMap} {G : Type} `{RandomSource G}.

(** C8. Two runs on the same body return records that agree on every
    entry but primary_mood, whatever the two generator states; they
    return the same record as soon as the two draws agree, so in
    particular from equal states.  With a meme keyword present the mood
    is "euphoria", the generator is left untouched and the two records
    are equal; with none, the mood is the entry of MOODS at the index
    drawn. *)
Theorem classify_depends_on_source_through_mood_only
    (body : string) (g1 g2 : G) :
  exists c1 g1' c2 g2',
    mock_classify_comment body g1 = (Ok c1, g1') /\
    mock_classify_comment body g2 = (Ok c2, g2') /\
    c1 = with_mood (primary_mood c1) c2 /\
    (g1 = g2 -> c1 = c2 /\ g1' = g2') /\
    (fst (randbelow (length MOODS) g1) = fst (randbelow (length MOODS) g2) ->
     c1 = c2) /\
    (meme_count body <> 0 ->
     primary_mood c1 = "euphoria" /\ c1 = c2 /\ g1' = g1) /\
    (meme_count body = 0 ->
     nth_error MOODS (fst (randbelow (length MOODS) g1)) = Some (primary_mood c1) /\
     g1' = snd (randbelow (length MOODS) g1)).
Proof.
  destruct (classify_total body g1) as [c1 [g1' Hc1]].
  destruct (classify_total body g2) as [c2 [g2' Hc2]].
  exists c1, g1', c2, g2'. split; [exact Hc1|]. split; [exact Hc2|].
  assert (Hrest : forall m, with_mood m c1 = with_mood m c2).
  { intros m.
    destruct (classify_inv _ _ _ _ Hc1)
      as (_ & A1 & A2 & A3 & A4 & A5 & A6 & A7 & A8 & A9 & A10).
    destruct (classify_inv _ _ _ _ Hc2)
      as (_ & B1 & B2 & B3 & B4 & B5 & B6 & B7 & B8 & B9 & B10).
    destruct c1 as [? ? ? ? ? ? s1 ? ?], c2 as [? ? ? ? ? ? s2 ? ?].
    destruct s1, s2. unfold with_mood. simpl in *. congruence. }
  assert (Hsame : primary_mood c1 = primary_mood c2 -> c1 = c2).
  { intros Hm. specialize (Hrest (primary_mood c1)).
    rewrite Hm in Hrest at 2. destruct c1, c2. exact Hrest. }
  destruct (classify_inv _ _ _ _ Hc1) as (Hm1 & _).
  destruct (classify_inv _ _ _ _ Hc2) as (Hm2 & _).
  unfold mood_of in Hm1, Hm2.
  split.
  { rewrite <- (Hrest (primary_mood c1)). now destruct c1. }
  split.
  { intros ->. rewrite Hc1 in Hc2. now inversion Hc2. }
  destruct (Z.eqb_spec (meme_count body) 0) as [Hz|Hnz].
  - destruct (random_choice_ok MOODS g1) as [m1 [Hr1 Hn1]]; [discriminate|].
    destruct (random_choice_ok MOODS g2) as [m2 [Hr2 Hn2]]; [discriminate|].
    rewrite Hr1 in Hm1. rewrite Hr2 in Hm2.
    inversion Hm1; subst m1. inversion Hm2; subst m2.
    split; [|split].
    + intros Hdraw. apply Hsame. rewrite Hdraw in Hn1. congruence.
    + intros Hne. contradiction.
    + intros _. split; [exact Hn1 | reflexivity].
  - inversion Hm1. inversion Hm2.
    assert (Heq : c1 = c2) by (apply Hsame; congruence).
    split; [|split].
    + intros _. exact Heq.
    + intros _. split; [congruence|]. split; [exact Heq | reflexivity].
    + intros Hz. contradiction.
Qed.

End SourceClaims.

(** ** The mean of a batch *)

Lemma sum_of_bounds {A : Type} (f : A -> Z) (lo hi : Z) (xs : list A) :
  List.Forall (fun x => lo <= f x <= hi) xs ->
  lo * len xs <= sum_of f xs <= hi * len xs.
Proof.
  unfold len. induction 1 as [|x xs Hx _ IH]; simpl length; simpl sum_of.
  - lia.
  - rewrite Nat2Z.inj_succ. lia.
Qed.

Lemma py_truediv_pos (n d : Z) :
  0 < d -> py_truediv n d = Ok (inject_Z n / inject_Z d)%Q.
Proof.
  intros Hd. unfold py_truediv.
  destruct (Z.eqb_spec d 0); [lia | reflexivity].
Qed.

Lemma quotient_between (lo hi n d : Z) :
  0 < d -> lo * d <= n <= hi * d ->
  (inject_Z lo <= inject_Z n / inject_Z d /\
   inject_Z n / inject_Z d <= inject_Z hi)%Q.
Proof.
  intros Hd Hb. destruct d as [|p|p]; try lia.
  unfold Qdiv, Qinv, Qmult, Qle, inject_Z. simpl.
  rewrite !Z.mul_1_r. lia.
Qed.

Lemma average_of_nonempty (c : Classification) (cs : list Classification) :
  average_degen_score (c :: cs) =
  Ok (inject_Z (sum_of degen_score (c :: cs)) / inject_Z (len (c :: cs)))%Q.
Proof.
  unfold average_degen_score. apply py_truediv_pos.
  unfold len. simpl length. lia.
Qed.

Section BatchClaims.
Context `{CaseMap} {G : Type} `{RandomSource G}.

(** The classification loop returns one record per body, each with a
    degen_score between 3 and 10. *)
Lemma classify_all_ok (bodies : list string) (g : G) :
  exists cs g',
    classify_all bodies g = (Ok cs, g') /\
    length cs = length bodies /\
    List.Forall (fun c => 3 <= degen_score c <= 10) cs.
Proof.
  revert g. induction bodies as [|body rest IH]; intros g.
  - exists [], g. repeat split; constructor.
  - simpl classify_all.
    destruct (classify_total body g) as [c [g1 Hc]]. rewrite Hc.
    destruct (IH g1) as [cs [g2 [Hcs [Hlen Hall]]]]. rewrite Hcs.
    exists (c :: cs), g2. split; [reflexivity|].
    split; [simpl; now rewrite Hlen|].
    constructor; [|exact Hall].
    destruct (classify_inv _ _ _ _ Hc)
      as (_ & _ & _ & _ & _ & _ & _ & _ & _ & Hd & _).
    pose proof (meme_count_bounds body). rewrite Hd.
    destruct (is_trade body); lia.
Qed.

(** C9. The degen_score of a returned record is at least 3: the value
    that is clamped is positive, so the lower bound 0 of
    clamp(..., 0, 10) never applies and the clamp is the [min] with 10.
    The mean degen_score of the records of a non-empty batch of bodies
    lies between 3 and 10. *)
Theorem degen_score_at_least_base (body : string) (rest : list string) (g : G) :
  (exists c g',
     mock_classify_comment body g = (Ok c, g') /\
     3 <= degen_score c /\
     let x := 3 + meme_count body + (if is_trade body then 2 else 0) in
     0 < x /\ degen_score c = clamp x 0 10 /\ clamp x 0 10 = Z.min 10 x) /\
  (exists cs g' q,
     classify_all (body :: rest) g = (Ok cs, g') /\
     length cs = S (length rest) /\
     average_degen_score cs = Ok q /\
     (3 <= q)%Q /\ (q <= 10)%Q).
Proof.
  split.
  - destruct (classify_total body g) as [c [g' Hc]]. exists c, g'.
    split; [exact Hc|].
    destruct (classify_inv _ _ _ _ Hc)
      as (_ & _ & _ & _ & _ & _ & _ & _ & _ & Hd & _).
    pose proof (meme_count_bounds body). rewrite Hd. unfold clamp.
    destruct (is_trade body); cbv zeta; lia.
  - destruct (classify_all_ok (body :: rest) g) as [cs [g' [Hcs [Hlen Hall]]]].
    destruct cs as [|c cs]; [discriminate|].
    eexists (c :: cs), g', _. split; [exact Hcs|]. split; [exact Hlen|].
    split; [apply average_of_nonempty|].
    apply (quotient_between 3 10).
    + unfold len. simpl length. lia.
    + apply sum_of_bounds. exact Hall.
Qed.

End BatchClaims.

(** ** The summary block *)

(** C1. A batch of no comments classifies to the empty list, and on
    it the summary block prints its first three lines and then ends in
    the ZeroDivisionError of the division by [len(classifications)],
    which nothing in [main] catches: no average line is printed and
    [main] does not return.  On a non-empty batch the average is the sum
    of the degen_scores over their number. *)
Theorem empty_batch_raises_ZeroDivisionError :
  (forall `{CaseMap} {G : Type} `{RandomSource G} (g : G),
     classify_all [] g = (Ok [], g)) /\
  summary_block [] =
    ([LAnalyzed 0; LTickers None; LBreakdown 0 0 0], Raise ZeroDivisionError) /\
  average_degen_score [] = Raise ZeroDivisionError /\
  forall c cs,
    average_degen_score (c :: cs) =
    Ok (inject_Z (sum_of degen_score (c :: cs)) / inject_Z (len (c :: cs)))%Q.
Proof.
  split; [reflexivity|].
  split; [vm_compute; reflexivity|]. split; [reflexivity|].
  exact average_of_nonempty.
Qed.

Lemma all_tickers_concat (cs : list Classification) :
  all_tickers cs = concat (map tickers cs).
Proof.
  unfold all_tickers.
  assert (Hgen : forall acc,
    fold_left (fun acc c => (acc ++ tickers c)%list) cs acc =
    (acc ++ concat (map tickers cs))%list).
  { induction cs as [|c cs IH]; intros acc; simpl.
    - now rewrite app_nil_r.
    - now rewrite IH, <- app_assoc. }
  apply Hgen.
Qed.

Lemma all_tickers_perm (l1 l2 : list Classification) :
  Permutation l1 l2 -> Permutation (all_tickers l1) (all_tickers l2).
Proof.
  rewrite !all_tickers_concat.
  induction 1 as [|c l1 l2 _ IH|c d l|l1 l2 l3 _ IH1 _ IH2]; simpl.
  - constructor.
  - now apply Permutation_app_head.
  - rewrite !app_assoc. apply Permutation_app_tail, Permutation_app_comm.
  - now transitivity (concat (map tickers l2)).
Qed.

Lemma count_where_perm {A : Type} (p : A -> bool) (l1 l2 : list A) :
  Permutation l1 l2 -> count_where p l1 = count_where p l2.
Proof.
  induction 1 as [|x l1 l2 _ IH|x y l|l1 l2 l3 _ IH1 _ IH2]; simpl;
    try lia; congruence.
Qed.

Lemma sum_of_perm {A : Type} (f : A -> Z) (l1 l2 : list A) :
  Permutation l1 l2 -> sum_of f l1 = sum_of f l2.
Proof.
  induction 1 as [|x l1 l2 _ IH|x y l|l1 l2 l3 _ IH1 _ IH2]; simpl;
    try lia; congruence.
Qed.

Lemma len_perm {A : Type} (l1 l2 : list A) :
  Permutation l1 l2 -> len l1 = len l2.
Proof. intros Hp. unfold len. now rewrite (Permutation_length Hp). Qed.

(** C6. Reordering the records of a batch changes nothing in the summary:
    the count, the set of tickers, the three direction counts and the
    average (or the exception that replaces it) are the same. *)
Theorem summary_block_permutation (l1 l2 : list Classification) :
  Permutation l1 l2 ->
  summary_block l1 = summary_block l2 /\
  len l1 = len l2 /\
  unique_tickers l1 = unique_tickers l2 /\
  bullish l1 = bullish l2 /\ bearish l1 = bearish l2 /\
  neutral l1 = neutral l2 /\
  average_degen_score l1 = average_degen_score l2.
Proof.
  intros Hp.
  assert (Hlen : len l1 = len l2) by now apply len_perm.
  assert (Hset : unique_tickers l1 = unique_tickers l2).
  { unfold unique_tickers.
    now rewrite (list_to_set_perm_L _ _ (all_tickers_perm _ _ Hp)). }
  assert (Hbull : bullish l1 = bullish l2) by now apply count_where_perm.
  assert (Hbear : bearish l1 = bearish l2) by now apply count_where_perm.
  assert (Hneut : neutral l1 = neutral l2).
  { unfold neutral. now rewrite Hlen, Hbull, Hbear. }
  assert (Havg : average_degen_score l1 = average_degen_score l2).
  { unfold average_degen_score. now rewrite Hlen, (sum_of_perm _ _ _ Hp). }
  repeat split; try assumption.
  unfold summary_block. now rewrite Hlen, Hset, Hbull, Hbear, Hneut, Havg.
Qed.

(** * Concrete runs

    On ASCII text with the tape generator. *)

(** The empty body: nothing matches, and the mood is the one drawn. *)
Example classify_empty_body :
  mock_classify_comment "" [3%nat] =
  (Ok {| is_trade_plan := false;
         is_meme := false;
         is_commentary := true;
         tickers := [];
         primary_mood := "cope";
         topic_type := "other";
         sentiment := {| trade_direction := "neutral";
                         sentiment_confidence := 3;
                         is_sarcastic := false |};
         degen_score := 3;
         meme_score := 0 |}, []).
Proof. vm_compute. reflexivity. Qed.

(** A trade plan on one ticker with three meme keywords; the generator
    is not consulted. *)
Example classify_trade_plan_meme :
  mock_classify_comment
    "I just bought SPY calls, to the moon! lol ape wife's boyfriend" [3%nat] =
  (Ok {| is_trade_plan := true;
         is_meme := true;
         is_commentary := true;
         tickers := ["SPY"];
         primary_mood := "euphoria";
         topic_type := "single_stock";
         sentiment := {| trade_direction := "bullish";
                         sentiment_confidence := 5;
                         is_sarcastic := true |};
         degen_score := 8;
         meme_score := 9 |}, [3%nat]).
Proof. vm_compute. reflexivity. Qed.

(** Matching ignores case and word boundaries. *)
Example classify_two_tickers :
  exists c g',
    mock_classify_comment "LOL nvda Tsla puts" [] = (Ok c, g') /\
    tickers c = ["NVDA"; "TSLA"] /\
    topic_type c = "index_macro" /\
    trade_direction (sentiment c) = "bearish" /\
    degen_score c = 6.
Proof. eexists _, _. vm_compute. repeat split. Qed.

(** With no meme keyword the mood follows the draw. *)
Example mood_follows_draw :
  exists c0 c1 g0 g1,
    mock_classify_comment "" [0%nat] = (Ok c0, g0) /\
    mock_classify_comment "" [1%nat] = (Ok c1, g1) /\
    primary_mood c0 = "euphoria" /\ primary_mood c1 = "fear".
Proof. eexists _, _, _, _. vm_compute. repeat split. Qed.

(** Two records scoring 4 and 6 average to 5. *)
Example average_of_4_and_6 :
  exists q,
    average_degen_score [record_with "bullish" 4; record_with "bearish" 6] = Ok q /\
    (q == 5)%Q.
Proof. eexists. split; [vm_compute; reflexivity | reflexivity]. Qed.

(** A record whose direction is neither "bullish" nor "bearish" lands in
    the neutral remainder. *)
Example mixed_counts_as_neutral :
  summary_block [record_with "mixed" 4] =
  ([LAnalyzed 1; LTickers (Some {["SPY"]}); LBreakdown 0 0 1; LAverage (4 # 1)],
   Ok 0).
Proof. vm_compute. reflexivity. Qed.

Lemma summary_block_permutation_witness :
  let l1 := [record_with "bullish" 4; record_with "bearish" 6] in
  let l2 := [record_with "bearish" 6; record_with "bullish" 4] in
  summary_block l1 = summary_block l2 /\
  len l1 = len l2 /\
  unique_tickers l1 = unique_tickers l2 /\
  bullish l1 = bullish l2 /\ bearish l1 = bearish l2 /\
  neutral l1 = neutral l2 /\
  average_degen_score l1 = average_degen_score l2.
Proof.
  intros l1 l2. apply (summary_block_permutation l1 l2). apply perm_swap.
Defined.

Lemma scores_monotone_in_meme_count_witness :
  exists c1 g1' c2 g2',
    mock_classify_comment "lol" [] = (Ok c1, g1') /\
    mock_classify_comment "lol lmao" [] = (Ok c2, g2') /\
    meme_score c1 <= meme_score c2 /\
    degen_score c1 <= degen_score c2.
Proof.
  apply (scores_monotone_in_meme_count "lol" "lol lmao" [] []);
    [reflexivity | reflexivity | reflexivity | reflexivity |
     vm_compute; discriminate].
Defined.

Lemma classify_depends_on_source_through_mood_only_witness :
  (exists c1 g1' c2 g2',
     mock_classify_comment "lol" [0%nat] = (Ok c1, g1') /\
     mock_classify_comment "lol" [1%nat] = (Ok c2, g2') /\
     primary_mood c1 = "euphoria" /\ c1 = c2 /\ g1' = [0%nat]) /\
  (exists c1 g1',
     mock_classify_comment "" [1%nat] = (Ok c1, g1') /\
     nth_error MOODS 1 = Some (primary_mood c1) /\ g1' = []).
Proof.
  split.
  - destruct (classify_depends_on_source_through_mood_only "lol" [0%nat] [1%nat])
      as (c1 & g1' & c2 & g2' & H1 & H2 & _ & _ & _ & Hmeme & _).
    exists c1, g1', c2, g2'. split; [exact H1|]. split; [exact H2|].
    apply Hmeme. vm_compute. discriminate.
  - destruct (classify_depends_on_source_through_mood_only "" [1%nat] [1%nat])
      as (c1 & g1' & _ & _ & H1 & _ & _ & _ & _ & _ & Hnone).
    exists c1, g1'. split; [exact H1|].
    apply Hnone. reflexivity.
Defined.

Lemma trade_plan_or_commentary_witness :
  exists c g',
    mock_classify_comment "" [2%nat] = (Ok c, g') /\
    is_trade_plan c = false /\ is_commentary c = true.
Proof.
  destruct (trade_plan_or_commentary "" [2%nat]) as (c & g' & Hc & _ & Himp).
  exists c, g'. split; [exact Hc|].
  assert (Hf : is_trade_plan c = false).
  { pose proof Hc as Hc'. vm_compute in Hc'. now inversion Hc'. }
  split; [exact Hf | exact (Himp Hf)].
Defined.

(** * Further properties of the classifier *)



Lemma filter_sublist_self {A : Type} (p : A -> bool) (xs : list A) :
  sublist (List.filter p xs) xs.
Proof.
  induction xs as [|x xs IH]; simpl; [constructor|].
  destruct (p x); now constructor.
Qed.



Section FieldInvariants.
Context `{CaseMap} {G : Type} `{RandomSource G}.

(** The generator after one classification: one draw on a body with no
    meme keyword, none otherwise. *)
Lemma classify_state (b : string) (g g' : G) (c : Classification) :
  mock_classify_comment b g = (Ok c, g') ->
  g' = if meme_count b =? 0 then snd (randbelow (length MOODS) g) else g.
Proof.
  intros Hc. destruct (classify_inv _ _ _ _ Hc) as (Hm & _).
  unfold mood_of in Hm. destruct (meme_count b =? 0).
  - destruct (random_choice_ok MOODS g) as [m [Hr _]]; [discriminate|].
    rewrite Hr in Hm. now inversion Hm.
  - now inversion Hm.
Qed.

(** X1. A record is flagged is_meme exactly when its meme_score is 6 or
    more; a record flagged is_meme is also flagged sarcastic, has the
    mood "euphoria", and was built without touching the generator. *)
Theorem meme_record_is_sarcastic_euphoria (b : string) (g : G) :
  exists c g',
    mock_classify_comment b g = (Ok c, g') /\
    is_meme c = (meme_score c >=? 6) /\
    (is_meme c = true ->
     is_sarcastic (sentiment c) = true /\ primary_mood c = "euphoria" /\ g' = g).
Proof.
  destruct (classify_total b g) as [c [g' Hc]]. exists c, g'.
  split; [exact Hc|].
  pose proof (classify_state _ _ _ _ Hc) as Hg.
  destruct (classify_inv _ _ _ _ Hc)
    as (Hmood & _ & Hmeme & _ & _ & _ & _ & _ & Hsarc & _ & Hscore).
  pose proof (meme_count_bounds b) as Hb.
  rewrite Hmeme, Hsarc, Hscore. split.
  - destruct (Z.geb_spec (meme_count b) 2),
      (Z.geb_spec (Z.min 10 (meme_count b * 3)) 6); try reflexivity; lia.
  - intros Hge. rewrite Hge, orb_true_r. split; [reflexivity|].
    assert (Hnz : (meme_count b =? 0) = false).
    { destruct (Z.eqb_spec (meme_count b) 0) as [Hz|]; [|reflexivity].
      rewrite Hz in Hge. discriminate. }
    unfold mood_of in Hmood. rewrite Hnz in Hmood, Hg.
    split; [congruence | exact Hg].
Qed.

(** X2. The sentiment_confidence of a record is 3 plus the number of
    bullish and bearish keywords found, capped at 10: it is never below
    3, it is 3 exactly when no such keyword occurs, and a record whose
    direction is not "neutral" has a confidence of at least 4. *)
Theorem sentiment_confidence_from_three (b : string) (g : G) :
  exists c g',
    mock_classify_comment b g = (Ok c, g') /\
    sentiment_confidence (sentiment c) =
      Z.min 10 (3 + bullish_count b + bearish_count b) /\
    3 <= sentiment_confidence (sentiment c) <= 10 /\
    (sentiment_confidence (sentiment c) = 3 <->
     bullish_count b = 0 /\ bearish_count b = 0) /\
    (trade_direction (sentiment c) <> "neutral" ->
     4 <= sentiment_confidence (sentiment c)).
Proof.
  destruct (classify_total b g) as [c [g' Hc]]. exists c, g'.
  split; [exact Hc|].
  destruct (classify_inv _ _ _ _ Hc) as (_ & _ & _ & _ & _ & _ & Hdir & Hconf & _).
  pose proof (bullish_count_bounds b) as Hb.
  pose proof (bearish_count_bounds b) as Hr.
  rewrite Hconf, Hdir. split; [lia|]. split; [lia|]. split; [lia|].
  unfold direction. rewrite !Z.gtb_ltb.
  destruct (Z.ltb_spec (bearish_count b) (bullish_count b)); [lia|].
  destruct (Z.ltb_spec (bullish_count b) (bearish_count b)); [lia|].
  intros Hn. contradiction Hn. reflexivity.
Qed.

(** X3. A record is not commentary exactly when it is a trade plan that
    names no ticker; such a record has the topic type "other". *)
Theorem non_commentary_is_tickerless_trade_plan (b : string) (g : G) :
  exists c g',
    mock_classify_comment b g = (Ok c, g') /\
    (is_commentary c = false <-> is_trade_plan c = true /\ tickers c = []) /\
    (is_commentary c = false -> topic_type c = "other").
Proof.
  destruct (classify_total b g) as [c [g' Hc]]. exists c, g'.
  split; [exact Hc|].
  destruct (classify_inv _ _ _ _ Hc) as (_ & Htr & _ & Hcom & Htick & Htopic & _).
  rewrite Hcom, Htr, Htick, Htopic. unfold len.
  destruct (is_trade b), (found_tickers b) as [|t ts]; simpl;
    (split; [split; [intros Hf | intros [Ht Hn]] | intros Hf]);
    try discriminate; try reflexivity; try (split; reflexivity).
Qed.

(** X4. The tickers of a record are listed in the order of the ticker
    table, each at most once, whatever their order and number of
    occurrences in the text; a ticker is listed exactly when it is in the
    table and occurs in the upper-cased body.  So no record names more
    than ten tickers. *)
Theorem tickers_follow_table_order (b : string) (g : G) :
  exists c g',
    mock_classify_comment b g = (Ok c, g') /\
    sublist (tickers c) COMMON_TICKERS /\
    (forall t, In t (tickers c) <->
               In t COMMON_TICKERS /\ contains (str_upper b) t = true) /\
    (length (tickers c) <= 10)%nat.
Proof.
  destruct (classify_total b g) as [c [g' Hc]]. exists c, g'.
  split; [exact Hc|].
  destruct (classify_inv _ _ _ _ Hc) as (_ & _ & _ & _ & Htick & _).
  rewrite Htick. unfold found_tickers.
  split; [apply filter_sublist_self|]. split.
  - intros t. apply List.filter_In.
  - apply (sublist_length _ COMMON_TICKERS), filter_sublist_self.
Qed.

(** X5. The record depends on the body only through its upper-cased and
    lower-cased forms, but for the sarcasm marker, which is looked up in
    the body as written: two bodies with the same upper-cased and the
    same lower-cased form get, from the same generator state, records
    that differ at most in is_sarcastic, and leave the same state. *)
Theorem classify_ignores_case (b1 b2 : string) (g : G) :
  str_upper b1 = str_upper b2 ->
  str_lower b1 = str_lower b2 ->
  exists c1 c2 g',
    mock_classify_comment b1 g = (Ok c1, g') /\
    mock_classify_comment b2 g = (Ok c2, g') /\
    c1 = with_sarcasm (is_sarcastic (sentiment c1)) c2 /\
    (contains b1 "/s" = contains b2 "/s" -> c1 = c2).
Proof.
  intros Hup Hlow.
  assert (Hsame : mock_classify_comment b1 g =
    match mock_classify_comment b2 g with
    | (Ok c, g') => (Ok (with_sarcasm (contains b1 "/s" || (meme_count b1 >=? 2)) c), g')
    | other => other
    end).
  { unfold mock_classify_comment, mood_of, found_tickers, direction,
      bullish_count, bearish_count, is_trade, meme_count.
    rewrite Hup, Hlow.
    match goal with |- context [if ?x then _ else _] => destruct x end.
    - destruct (random_choice MOODS g) as [[m|e] g1]; reflexivity.
    - reflexivity. }
  destruct (classify_total b2 g) as [c2 [g' Hc2]]. rewrite Hc2 in Hsame.
  eexists _, c2, g'. split; [exact Hsame|]. split; [exact Hc2|].
  split; [reflexivity|].
  intros Hs. destruct (classify_inv _ _ _ _ Hc2)
    as (_ & _ & _ & _ & _ & _ & _ & _ & Hsarc & _).
  assert (Hm : meme_count b1 = meme_count b2)
    by (unfold meme_count; now rewrite Hlow).
  rewrite Hs, Hm, <- Hsarc. destruct c2 as [? ? ? ? ? ? [? ? ?] ? ?]. reflexivity.
Qed.


End FieldInvariants.

(** * Further properties of a batch *)

Section BatchComposition.
Context `{CaseMap} {G : Type} `{RandomSource G}.

Lemma classify_all_cons (b : string) (rest : list string) (g : G) :
  exists c g1 cs g2,
    mock_classify_comment b g = (Ok c, g1) /\
    classify_all rest g1 = (Ok cs, g2) /\
    classify_all (b :: rest) g = (Ok (c :: cs), g2).
Proof.
  destruct (classify_total b g) as [c [g1 Hc]].
  destruct (classify_all_ok rest g1) as [cs [g2 [Hcs _]]].
  exists c, g1, cs, g2. split; [exact Hc|]. split; [exact Hcs|].
  simpl. now rewrite Hc, Hcs.
Qed.

(** X7. Classifying a batch draws from the generator once per body that
    holds no meme keyword and not at all for the others: the state left
    behind is the initial one advanced by that many draws below
    [len(MOODS)]. *)
Theorem classify_all_draws_once_per_meme_free_body
    (bodies : list string) (g : G) :
  exists cs g',
    classify_all bodies g = (Ok cs, g') /\
    g' = Nat.iter
           (length (List.filter (fun b => meme_count b =? 0) bodies))
           (fun s => snd (randbelow (length MOODS) s)) g.
Proof.
  revert g. induction bodies as [|b rest IH]; intros g.
  - exists [], g. split; reflexivity.
  - destruct (classify_all_cons b rest g) as (c & g1 & cs & g2 & Hc & Hcs & Hall).
    exists (c :: cs), g2. split; [exact Hall|].
    destruct (IH g1) as (cs' & g2' & Hcs' & Hg2).
    assert (Heq : cs = cs' /\ g2 = g2')
      by (rewrite Hcs in Hcs'; now inversion Hcs').
    destruct Heq as [<- <-].
    rewrite Hg2, (classify_state _ _ _ _ Hc). simpl List.filter.
    destruct (meme_count b =? 0); [|reflexivity].
    simpl length. now rewrite Nat.iter_succ_r.
Qed.

(** X8. Classifying two batches one after the other, the second from the
    generator state the first leaves, gives the records of the joined
    batch: a batch can be cut anywhere. *)
Theorem classify_all_app (bodies1 bodies2 : list string) (g : G) :
  exists cs1 g1 cs2 g2,
    classify_all bodies1 g = (Ok cs1, g1) /\
    classify_all bodies2 g1 = (Ok cs2, g2) /\
    classify_all (bodies1 ++ bodies2)%list g = (Ok (cs1 ++ cs2)%list, g2).
Proof.
  revert g. induction bodies1 as [|b rest IH]; intros g.
  - destruct (classify_all_ok bodies2 g) as [cs2 [g2 [H2 _]]].
    exists [], g, cs2, g2. split; [reflexivity|]. split; exact H2.
  - destruct (classify_all_cons b rest g) as (c & g0 & cs & g1 & Hc & Hcs & Hall).
    destruct (IH g0) as (cs1 & g1' & cs2 & g2 & H1 & H2 & H12).
    assert (Heq : cs = cs1 /\ g1 = g1')
      by (rewrite Hcs in H1; now inversion H1).
    destruct Heq as [<- <-].
    exists (c :: cs), g1, cs2, g2. split; [exact Hall|]. split; [exact H2|].
    simpl. now rewrite Hc, H12.
Qed.

(** X9. In the summary of a batch that came out of the classifier, every
    ticker shown is one of the ticker table, and the neutral figure,
    computed as a remainder, is the number of records whose direction is
    "neutral". *)
Theorem classified_batch_summary (bodies : list string) (g : G) :
  exists cs g',
    classify_all bodies g = (Ok cs, g') /\
    (forall t, In t (all_tickers cs) -> In t COMMON_TICKERS) /\
    neutral cs = count_where (direction_is "neutral") cs.
Proof.
  revert g. induction bodies as [|b rest IH]; intros g.
  - exists [], g. split; [reflexivity|]. split; [intros t []|reflexivity].
  - destruct (classify_all_cons b rest g) as (c & g1 & cs & g2 & Hc & Hcs & Hall).
    exists (c :: cs), g2. split; [exact Hall|].
    destruct (IH g1) as (cs' & g2' & Hcs' & Htick & Hneut).
    assert (Heq : cs = cs' /\ g2 = g2')
      by (rewrite Hcs in Hcs'; now inversion Hcs').
    destruct Heq as [<- <-].
    destruct (classify_inv _ _ _ _ Hc) as (_ & _ & _ & _ & Ht & _ & Hdir & _).
    split.
    + intros t. rewrite all_tickers_concat. simpl. rewrite in_app_iff.
      intros [Hin | Hin].
      * rewrite Ht in Hin. unfold found_tickers in Hin.
        now apply List.filter_In in Hin.
      * apply Htick. now rewrite all_tickers_concat.
    + revert Hneut. unfold neutral, bullish, bearish, len, direction_is.
      simpl length. simpl count_where. rewrite Hdir, Nat2Z.inj_succ.
      destruct (direction_cases b) as [-> | [-> | ->]]; simpl; lia.
Qed.

End BatchComposition.

(** * Further properties of the summary *)

Lemma count_where_app {A : Type} (p : A -> bool) (l1 l2 : list A) :
  count_where p (l1 ++ l2)%list = count_where p l1 + count_where p l2.
Proof. induction l1 as [|x l1 IH]; simpl; lia. Qed.

Lemma sum_of_app {A : Type} (f : A -> Z) (l1 l2 : list A) :
  sum_of f (l1 ++ l2)%list = sum_of f l1 + sum_of f l2.
Proof. induction l1 as [|x l1 IH]; simpl; lia. Qed.

Lemma len_app {A : Type} (l1 l2 : list A) :
  len (l1 ++ l2)%list = len l1 + len l2.
Proof. unfold len. rewrite length_app. lia. Qed.

(** X10. Whatever the records hold, the three direction figures are not
    negative and add up to the number of records; the neutral figure
    counts every record whose direction is neither "bullish" nor
    "bearish", "mixed" and any other value included. *)
Theorem neutral_counts_the_rest (cs : list Classification) :
  neutral cs =
    count_where (fun c => negb (direction_is "bullish" c) &&
                          negb (direction_is "bearish" c)) cs /\
  0 <= bullish cs /\ 0 <= bearish cs /\ 0 <= neutral cs /\
  bullish cs + bearish cs + neutral cs = len cs.
Proof.
  assert (Hrest : neutral cs =
    count_where (fun c => negb (direction_is "bullish" c) &&
                          negb (direction_is "bearish" c)) cs).
  { unfold neutral, bullish, bearish, len, direction_is.
    induction cs as [|c cs IH]; [reflexivity|].
    simpl length. simpl count_where. rewrite Nat2Z.inj_succ, <- IH.
    destruct (String.eqb_spec (trade_direction (sentiment c)) "bullish") as [->|];
      [simpl; lia|].
    destruct (String.eqb (trade_direction (sentiment c)) "bearish"); simpl; lia. }
  split; [exact Hrest|].
  pose proof (count_where_bounds (direction_is "bullish") cs).
  pose proof (count_where_bounds (direction_is "bearish") cs).
  pose proof (count_where_bounds
    (fun c => negb (direction_is "bullish" c) && negb (direction_is "bearish" c)) cs).
  unfold bullish, bearish. rewrite Hrest. repeat split; try lia.
  rewrite <- Hrest. unfold neutral, bullish, bearish. lia.
Qed.

(** X11. The figures of two batches put end to end come from the figures
    of each: the counts, the direction figures and the degen_score sums
    add up, and the ticker set is the union of the two ticker sets. *)
Theorem summary_of_joined_batches (l1 l2 : list Classification) :
  len (l1 ++ l2)%list = len l1 + len l2 /\
  bullish (l1 ++ l2)%list = bullish l1 + bullish l2 /\
  bearish (l1 ++ l2)%list = bearish l1 + bearish l2 /\
  neutral (l1 ++ l2)%list = neutral l1 + neutral l2 /\
  sum_of degen_score (l1 ++ l2)%list =
    sum_of degen_score l1 + sum_of degen_score l2 /\
  (list_to_set (all_tickers (l1 ++ l2)%list) : gset string) =
    list_to_set (all_tickers l1) ∪ list_to_set (all_tickers l2).
Proof.
  unfold neutral, bullish, bearish.
  rewrite !count_where_app, len_app, sum_of_app.
  repeat split; try lia.
  rewrite !all_tickers_concat, map_app, concat_app.
  apply list_to_set_app_L.
Qed.

(** X12. The ticker line reads 'None' exactly when no record names a
    ticker; otherwise it shows the set of the tickers named by some
    record. *)
Theorem unique_tickers_none_iff (cs : list Classification) :
  (unique_tickers cs = None <-> forall c, In c cs -> tickers c = []) /\
  (forall s, unique_tickers cs = Some s ->
     forall t, t ∈ s <-> exists c, In c cs /\ In t (tickers c)).
Proof.
  assert (Hin : forall t, In t (all_tickers cs) <->
                          exists c, In c cs /\ In t (tickers c)).
  { intros t. rewrite all_tickers_concat, in_concat. split.
    - intros [l [Hl Ht]]. apply in_map_iff in Hl as [c [<- Hc]]. now exists c.
    - intros [c [Hc Ht]]. exists (tickers c). split; [now apply in_map | exact Ht]. }
  unfold unique_tickers. split.
  - destruct (decide _) as [He|Hne]; split; try discriminate; try reflexivity.
    + intros _ c Hc. destruct (tickers c) as [|t ts] eqn:Et; [reflexivity|].
      assert (Ht : t ∈ (list_to_set (all_tickers cs) : gset string)).
      { apply elem_of_list_to_set, list_elem_of_In, Hin.
        exists c. split; [exact Hc | rewrite Et; now left]. }
      rewrite He in Ht. set_solver.
    + intros Hall. exfalso. apply Hne. apply set_eq. intros t.
      rewrite elem_of_list_to_set, list_elem_of_In, Hin. split.
      * intros [c [Hc Ht]]. rewrite (Hall c Hc) in Ht. destruct Ht.
      * set_solver.
  - intros s. destruct (decide _); [discriminate|].
    intros Hs t. inversion Hs; subst s.
    now rewrite elem_of_list_to_set, list_elem_of_In, Hin.
Qed.


(** * The comments [main] takes, and how it ends *)

Lemma py_slice_to_firstn {A : Type} (l : list A) (k : Z) :
  py_slice_to l k =
  firstn (Z.to_nat (if k <? 0 then Z.max 0 (len l + k) else Z.min k (len l))) l.
Proof.
  unfold py_slice_to. f_equal. f_equal.
  destruct (Z.ltb_spec k 0).
  - destruct (Z.ltb_spec (k + len l) 0); lia.
  - destruct (Z.geb_spec k (len l)); lia.
Qed.

Lemma py_slice_to_length {A : Type} (l : list A) (k : Z) :
  len (py_slice_to l k) =
  (if k <? 0 then Z.max 0 (len l + k) else Z.min k (len l)).
Proof.
  rewrite py_slice_to_firstn. unfold len. rewrite length_firstn.
  destruct (Z.ltb_spec k 0); lia.
Qed.

Lemma py_slice_to_nil {A : Type} (l : list A) (k : Z) :
  py_slice_to l k = [] <-> l = [] \/ k = 0 \/ k <= - len l.
Proof.
  pose proof (py_slice_to_length l k) as Hlen.
  assert (Hnil : py_slice_to l k = [] <-> len (py_slice_to l k) = 0).
  { unfold len. destruct (py_slice_to l k); simpl length; split;
      intros Hx; try reflexivity; try discriminate; lia. }
  rewrite Hnil, Hlen. unfold len.
  destruct l as [|x l]; simpl length.
  - split; [now left|]. intros _. destruct (Z.ltb_spec k 0); lia.
  - destruct (Z.ltb_spec k 0); split; try lia.
    + intros [Hl | Hk]; [discriminate | lia].
    + intros [Hl | Hk]; [discriminate | lia].
Qed.

(** X14. [l[:k]] is a prefix of [l].  For [k >= 0] it holds the first
    [k] elements, or all of [l] when there are fewer; for [k < 0] it
    leaves out the last [-k] elements, and is empty when there are no
    more than that.  It is empty exactly when [l] is empty, [k] is 0, or
    [k <= -len(l)]. *)
Theorem py_slice_to_prefix_and_length {A : Type} (l : list A) (k : Z) :
  (exists dropped, l = (py_slice_to l k ++ dropped)%list) /\
  len (py_slice_to l k) =
    (if k <? 0 then Z.max 0 (len l + k) else Z.min k (len l)) /\
  (py_slice_to l k = [] <-> l = [] \/ k = 0 \/ k <= - len l).
Proof.
  split; [|split].
  - unfold py_slice_to. eexists. symmetry. apply firstn_skipn.
  - apply py_slice_to_length.
  - apply py_slice_to_nil.
Qed.

(** X15. The text [print_classification] shows is a prefix of the body
    of at most 300 characters; the three dots follow exactly when
    something was cut off, and without them the text is the whole body. *)
Theorem text_preview_cuts_at_300 {A : Type} (txt : list A) :
  (exists cut, txt = (fst (text_preview txt) ++ cut)%list /\
               (snd (text_preview txt) = true <-> cut <> [])) /\
  len (fst (text_preview txt)) = Z.min 300 (len txt) /\
  (snd (text_preview txt) = false -> fst (text_preview txt) = txt).
Proof.
  unfold text_preview. simpl fst. simpl snd.
  rewrite py_slice_to_firstn.
  change (300 <? 0) with false. cbv iota.
  assert (Hlen : length (firstn (Z.to_nat (Z.min 300 (len txt))) txt) =
                 Z.to_nat (Z.min 300 (len txt))).
  { rewrite length_firstn. unfold len. lia. }
  pose proof (firstn_skipn (Z.to_nat (Z.min 300 (len txt))) txt) as Hsplit.
  assert (Hskip : length (skipn (Z.to_nat (Z.min 300 (len txt))) txt) =
                  Z.to_nat (len txt - Z.min 300 (len txt))).
  { rewrite length_skipn. unfold len. lia. }
  split; [|split].
  - exists (skipn (Z.to_nat (Z.min 300 (len txt))) txt).
    split; [now symmetry|].
    destruct (skipn (Z.to_nat (Z.min 300 (len txt))) txt) as [|x cut];
      simpl length in Hskip.
    + split; [|intros Hc; now contradiction Hc].
      destruct (Z.gtb_spec (len txt) 300) as [Hgt|Hle];
        [intros _; exfalso; clear - Hgt Hskip; lia | discriminate].
    + split; [intros _; discriminate|]. intros _.
      destruct (Z.gtb_spec (len txt) 300) as [Hgt|Hle];
        [reflexivity | exfalso; clear - Hle Hskip; lia].
  - unfold len at 1. rewrite Hlen. unfold len. lia.
  - destruct (Z.gtb_spec (len txt) 300); [discriminate|]. intros _.
    apply firstn_all2. unfold len in *. lia.
Qed.

Lemma summary_block_outcome (cs : list Classification) :
  snd (summary_block cs) =
  match cs with
  | [] => Raise ZeroDivisionError
  | _ :: _ => Ok 0
  end.
Proof.
  unfold summary_block. destruct cs as [|c cs]; [reflexivity|].
  now rewrite average_of_nonempty.
Qed.

Section MainFacts.
Context `{CaseMap} {G : Type} `{RandomSource G}.

(** The loop classifies the bodies in order and prints one numbered
    entry per comment. *)
Lemma classification_loop_ok (i : Z) (comments : list Comment) (g : G) :
  exists ks g',
    classify_all (map body comments) g = (Ok ks, g') /\
    length ks = length comments /\
    classification_loop i comments g =
      (zip_with (fun ic k => PClassification (fst ic) (snd ic) k)
         (zip (seqZ i (len comments)) comments) ks,
       Ok ks, g').
Proof.
  revert i g. induction comments as [|c rest IH]; intros i g.
  - exists [], g. repeat split.
  - simpl map.
    destruct (classify_all_cons (body c) (map body rest) g)
      as (k & g1 & ks & g2 & Hk & Hks & Hall).
    destruct (IH (i + 1) g1) as (ks' & g2' & Hks' & Hlen & Hloop).
    assert (Heq : ks = ks' /\ g2 = g2')
      by (rewrite Hks in Hks'; now inversion Hks').
    destruct Heq as [<- <-].
    exists (k :: ks), g2. split; [exact Hall|].
    split; [simpl; now rewrite Hlen|].
    simpl classification_loop. rewrite Hk, Hloop.
    unfold len. simpl length.
    rewrite (seqZ_cons i) by lia.
    replace (Z.succ i) with (i + 1) by lia.
    replace (Z.pred (Z.of_nat (S (length rest)))) with (Z.of_nat (length rest)) by lia.
    reflexivity.
Qed.

(** A run of [main] that gets past the credentials and the fetch. *)
Lemma main_run (client_id client_secret : option string) (limit : Z)
    (all_comments : list Comment) (g : G) :
  falsy client_id = false ->
  falsy client_secret = false ->
  exists ks g',
    let comments := py_slice_to all_comments limit in
    classify_all (map body comments) g = (Ok ks, g') /\
    length ks = length comments /\
    main client_id client_secret limit (Some all_comments) g =
      ((PFetched (len comments)
        :: zip_with (fun ic k => PClassification (fst ic) (snd ic) k)
             (zip (seqZ 1 (len comments)) comments) ks
        ++ map PSummary (fst (summary_block ks)))%list,
       snd (summary_block ks), g').
Proof.
  intros Hid Hsec. unfold main. rewrite Hid, Hsec. simpl orb. cbv iota.
  destruct (classification_loop_ok 1 (py_slice_to all_comments limit) g)
    as (ks & g' & Hks & Hlen & Hloop).
  exists ks, g'. cbv zeta. split; [exact Hks|]. split; [exact Hlen|].
  rewrite Hloop. now destruct (summary_block ks).
Qed.

End MainFacts.

Lemma printed_classifications_app (out1 out2 : list Printed) :
  printed_classifications (out1 ++ out2)%list =
  (printed_classifications out1 ++ printed_classifications out2)%list.
Proof. unfold printed_classifications. apply flat_map_app. Qed.

Lemma printed_classifications_summary (lines : list Line) :
  printed_classifications (map PSummary lines) = [].
Proof. induction lines as [|l lines IH]; [reflexivity | exact IH]. Qed.

Lemma printed_classifications_numbered
    (ics : list (Z * Comment)) (ks : list Classification) :
  printed_classifications
    (zip_with (fun ic k => PClassification (fst ic) (snd ic) k) ics ks) =
  zip ics ks.
Proof.
  revert ks. induction ics as [|[i c] ics IH]; intros [|k ks]; try reflexivity.
  simpl. f_equal. apply IH.
Qed.

Section MainClaims.
Context `{CaseMap} {G : Type} `{RandomSource G}.

Lemma main_outcome (client_id client_secret : option string) (limit : Z)
    (submission : option (list Comment)) (g : G) :
  snd (fst (main client_id client_secret limit submission g)) =
  if falsy client_id || falsy client_secret then Ok 1
  else match submission with
       | None => Ok 1
       | Some all_comments =>
           match py_slice_to all_comments limit with
           | [] => Raise ZeroDivisionError
           | _ :: _ => Ok 0
           end
       end.
Proof.
  destruct (falsy client_id) eqn:Hid; [unfold main; now rewrite Hid|].
  destruct (falsy client_secret) eqn:Hsec;
    [unfold main; now rewrite Hid, Hsec|].
  destruct submission as [all_comments|];
    [|unfold main; now rewrite Hid, Hsec].
  destruct (main_run client_id client_secret limit all_comments g Hid Hsec)
    as (ks & g' & _ & Hlen & Hmain).
  rewrite Hmain. simpl. rewrite summary_block_outcome.
  destruct ks, (py_slice_to all_comments limit); try discriminate; reflexivity.
Qed.

(** X16. [main] returns 1 exactly when a credential is unset or empty,
    or fetching the thread fails; it has then printed a single error
    report, classified nothing and left the generator as it was. *)
Theorem main_returns_1_iff (client_id client_secret : option string)
    (limit : Z) (submission : option (list Comment)) (g : G) :
  let run := main client_id client_secret limit submission g in
  (snd (fst run) = Ok 1 <->
   falsy client_id = true \/ falsy client_secret = true \/ submission = None) /\
  (snd (fst run) = Ok 1 ->
   snd run = g /\
   (fst (fst run) = [PMissingCredentials] \/ fst (fst run) = [PFetchError])).
Proof.
  cbv zeta. rewrite main_outcome. unfold main.
  destruct (falsy client_id), (falsy client_secret); simpl orb; cbv iota;
    try (split; [split; [tauto | reflexivity] | intros _; split; [reflexivity | now left]]).
  destruct submission as [all_comments|].
  - split.
    + split.
      * destruct (py_slice_to all_comments limit); discriminate.
      * intros [Hx | [Hx | Hx]]; discriminate.
    + destruct (py_slice_to all_comments limit); discriminate.
  - split; [split; [tauto | reflexivity] | intros _; split; [reflexivity | now right]].
Qed.



(** X19. Once past the credentials and the fetch, [main] classifies the
    selected comments [all_comments[:limit]] in their order, prints each
    with its position counted from 1 beside its own classification, and
    summarises exactly those classifications: the number it reports as
    fetched is the number it reports as analyzed. *)
Theorem main_prints_what_it_summarises
    (client_id client_secret : option string) (limit : Z)
    (all_comments : list Comment) (g : G) :
  falsy client_id = false ->
  falsy client_secret = false ->
  exists ks out r g',
    let comments := py_slice_to all_comments limit in
    main client_id client_secret limit (Some all_comments) g = (out, r, g') /\
    classify_all (map body comments) g = (Ok ks, g') /\
    printed_classifications out = zip (zip (seqZ 1 (len comments)) comments) ks /\
    length ks = length comments /\
    head out = Some (PFetched (len comments)) /\
    In (PSummary (LAnalyzed (len comments))) out /\
    r = snd (summary_block ks).
Proof.
  intros Hid Hsec.
  destruct (main_run client_id client_secret limit all_comments g Hid Hsec)
    as (ks & g' & Hks & Hlen & Hmain).
  cbv zeta in *. eexists ks, _, _, g'. split; [exact Hmain|].
  split; [exact Hks|]. split; [|split; [exact Hlen|]].
  - change (PFetched ?n :: ?l)%list with ([PFetched n] ++ l)%list.
    rewrite !printed_classifications_app, printed_classifications_summary,
      printed_classifications_numbered, app_nil_r. reflexivity.
  - split; [reflexivity|]. split; [|reflexivity].
    right. apply in_or_app. right. apply in_map.
    assert (Hl : len ks = len (py_slice_to all_comments limit))
      by (unfold len; now rewrite Hlen).
    rewrite <- Hl. unfold summary_block.
    destruct (average_degen_score ks); simpl; now left.
Qed.

End MainClaims.

(** * Concrete runs of [main] and witnesses *)


(** With [--limit -1] the last of two comments is left out; the first,
    from a deleted account, is classified and summarised. *)
Example main_negative_limit :
  main (Some "id") (Some "secret") (-1)
    (Some [ {| author := None; body := "SPY puts lol"; score := -2;
               permalink := "/r/w/1" |};
            {| author := Some "ape"; body := "moon"; score := 7;
               permalink := "/r/w/2" |} ]) [4%nat] =
  ([ PFetched 1;
     PClassification 1
       {| author := None; body := "SPY puts lol"; score := -2;
          permalink := "/r/w/1" |}
       {| is_trade_plan := true; is_meme := false; is_commentary := true;
          tickers := ["SPY"]; primary_mood := "euphoria";
          topic_type := "single_stock";
          sentiment := {| trade_direction := "bearish";
                          sentiment_confidence := 4;
                          is_sarcastic := false |};
          degen_score := 6; meme_score := 3 |};
     PSummary (LAnalyzed 1);
     PSummary (LTickers (Some {["SPY"]}));
     PSummary (LBreakdown 0 1 0);
     PSummary (LAverage (6 # 1)) ],
   Ok 0, [4%nat]).
Proof. vm_compute. reflexivity. Qed.

(** With [--limit 0] nothing is selected and [main] ends in the
    exception; an empty credential stops it before anything is fetched. *)
Example main_limit_zero_and_empty_secret :
  main (Some "id") (Some "secret") 0
    (Some [ {| author := Some "ape"; body := "moon"; score := 7;
               permalink := "/r/w/2" |} ]) [4%nat] =
  ([ PFetched 0; PSummary (LAnalyzed 0); PSummary (LTickers None);
     PSummary (LBreakdown 0 0 0) ],
   Raise ZeroDivisionError, [4%nat]) /\
  main (Some "id") (Some "") 5 (Some []) [4%nat] =
  ([PMissingCredentials], Ok 1, [4%nat]).
Proof. split; vm_compute; reflexivity. Qed.

Lemma meme_record_is_sarcastic_euphoria_witness :
  exists c g',
    mock_classify_comment "lol lmao" [5%nat] = (Ok c, g') /\
    is_meme c = true /\
    is_sarcastic (sentiment c) = true /\ primary_mood c = "euphoria" /\
    g' = [5%nat].
Proof.
  destruct (meme_record_is_sarcastic_euphoria "lol lmao" [5%nat])
    as (c & g' & Hc & _ & Himp).
  exists c, g'. split; [exact Hc|].
  assert (Hm : is_meme c = true).
  { pose proof Hc as Hc'. vm_compute in Hc'. now inversion Hc'. }
  split; [exact Hm | exact (Himp Hm)].
Defined.

Lemma sentiment_confidence_from_three_witness :
  exists c g',
    mock_classify_comment "to the moon" [] = (Ok c, g') /\
    4 <= sentiment_confidence (sentiment c).
Proof.
  destruct (sentiment_confidence_from_three "to the moon" [])
    as (c & g' & Hc & _ & _ & _ & Himp).
  exists c, g'. split; [exact Hc|]. apply Himp.
  pose proof Hc as Hc'. vm_compute in Hc'. inversion Hc'. discriminate.
Defined.

Lemma non_commentary_is_tickerless_trade_plan_witness :
  exists c g',
    mock_classify_comment "holding" [] = (Ok c, g') /\
    is_commentary c = false /\ topic_type c = "other".
Proof.
  destruct (non_commentary_is_tickerless_trade_plan "holding" [])
    as (c & g' & Hc & _ & Himp).
  exists c, g'. split; [exact Hc|].
  assert (Hf : is_commentary c = false).
  { pose proof Hc as Hc'. vm_compute in Hc'. now inversion Hc'. }
  split; [exact Hf | exact (Himp Hf)].
Defined.

Lemma classify_ignores_case_witness :
  exists c1 c2 g',
    mock_classify_comment "Lol spy" [2%nat] = (Ok c1, g') /\
    mock_classify_comment "lOL SPY" [2%nat] = (Ok c2, g') /\
    c1 = with_sarcasm (is_sarcastic (sentiment c1)) c2 /\
    (contains "Lol spy" "/s" = contains "lOL SPY" "/s" -> c1 = c2).
Proof.
  apply (classify_ignores_case "Lol spy" "lOL SPY" [2%nat]); reflexivity.
Defined.



Lemma main_prints_what_it_summarises_witness :
  let all_comments :=
    [ {| author := None; body := "SPY puts lol"; score := -2;
         permalink := "/r/w/1" |};
      {| author := Some "ape"; body := "moon"; score := 7;
         permalink := "/r/w/2" |} ] in
  exists ks out r g',
    let comments := py_slice_to all_comments 5 in
    main (Some "id") (Some "secret") 5 (Some all_comments) [4%nat] = (out, r, g') /\
    classify_all (map body comments) [4%nat] = (Ok ks, g') /\
    printed_classifications out = zip (zip (seqZ 1 (len comments)) comments) ks /\
    length ks = length comments /\
    head out = Some (PFetched (len comments)) /\
    In (PSummary (LAnalyzed (len comments))) out /\
    r = snd (summary_block ks).
Proof.
  intros all_comments.
  apply (main_prints_what_it_summarises (Some "id") (Some "secret") 5
           all_comments [4%nat]); reflexivity.
Defined.
